(** * badcapt: classification and export pipeline

    Shallow embedding of package [badcapt] (markers, record construction,
    export backends, configuration, per-packet dispatch) together with the
    properties of the design document that concern it.

    Conventions of the embedding.
    - A Go [error] result is [option error] ([None] is [nil]); a returned
      pointer-and-error pair is a [result T].
    - A Go panic is an [Outcome]: [Ret v] for a normal return, [Panic v]
      for a panic that unwinds the caller.
    - Calls that leave the package (search-index client, standard output,
      the logger) are recorded as [Event]s.  An effectful function is a
      function of the events that happened before it ([History]) returning
      its outcome and the events it emits itself; the answers of the
      outside world are given by an environment [Env].
    - A slice is a [list]; a [nil] slice and an empty one are both [[]]
      (the code only ever takes their [len] and appends to them). *)

From Stdlib Require Import List String ZArith Bool Lia.
From Stdlib.Strings Require Import Byte.
Import ListNotations.

Local Open Scope string_scope.
Local Open Scope list_scope.

(* ================================================================== *)
(** * Errors, results, panics *)

(** Go [error] values.  [errors_New] is [errors.New]; [foreign_error] is an
    error value handed back by a library outside the package. *)
Inductive error : Type :=
| errors_New (text : string)
| foreign_error (origin text : string).

(** [err.Error()] *)
Definition Error (e : error) : string :=
  match e with
  | errors_New text => text
  | foreign_error origin text => (origin ++ ": " ++ text)%string
  end.

Inductive result (A : Type) : Type :=
| Ok (a : A)
| Err (e : error).
Arguments Ok {A} a.
Arguments Err {A} e.

Inductive Outcome (A : Type) : Type :=
| Ret (a : A)
| Panic (v : string).
Arguments Ret {A} a.
Arguments Panic {A} v.

Definition obind {A B} (o : Outcome A) (k : A -> Outcome B) : Outcome B :=
  match o with
  | Ret a => k a
  | Panic v => Panic v
  end.

(* ================================================================== *)
(** * Packets (gopacket) *)

(** [uint16]; [layers.TCPPort] and [layers.UDPPort] are defined types over
    [uint16], so converting one to [uint16] keeps the value. *)
Definition uint16 := Z.
Definition TCPPort := uint16.
Definition UDPPort := uint16.
Definition uint16_of_TCPPort (p : TCPPort) : uint16 := p.
Definition uint16_of_UDPPort (p : UDPPort) : uint16 := p.

(** [net.IP] is a byte slice. *)
Definition IP := list byte.

(** [time.Time], as an instant on the capture clock. *)
Definition Time := Z.

Inductive LayerType : Type :=
| LayerTypeIPv4
| LayerTypeTCP
| LayerTypeUDP
| LayerTypePayload
| LayerTypeOther (id : nat).

Definition LayerType_eqb (a b : LayerType) : bool :=
  match a, b with
  | LayerTypeIPv4, LayerTypeIPv4 => true
  | LayerTypeTCP, LayerTypeTCP => true
  | LayerTypeUDP, LayerTypeUDP => true
  | LayerTypePayload, LayerTypePayload => true
  | LayerTypeOther i, LayerTypeOther j => Nat.eqb i j
  | _, _ => false
  end.

Record IPv4 : Type := mkIPv4 { ip4_SrcIP : IP; ip4_DstIP : IP }.
Record TCP : Type := mkTCP { tcp_SrcPort : TCPPort; tcp_DstPort : TCPPort }.
Record UDP : Type := mkUDP { udp_SrcPort : UDPPort; udp_DstPort : UDPPort }.

(** A decoded layer.  [L_App] stands for the layers that implement
    [gopacket.ApplicationLayer]; [L_Other] for every other layer
    (Ethernet, IPv6, ICMP, ...), which the package never looks into. *)
Inductive Layer : Type :=
| L_IPv4 (h : IPv4)
| L_TCP (h : TCP)
| L_UDP (h : UDP)
| L_App (payload : list byte)
| L_Other (id : nat).

(** [l.LayerType()] *)
Definition Layer_LayerType (l : Layer) : LayerType :=
  match l with
  | L_IPv4 _ => LayerTypeIPv4
  | L_TCP _ => LayerTypeTCP
  | L_UDP _ => LayerTypeUDP
  | L_App _ => LayerTypePayload
  | L_Other id => LayerTypeOther id
  end.

Record Packet : Type := mkPacket {
  pkt_Layers : list Layer;       (* p.Layers(), outermost first *)
  pkt_Timestamp : Time           (* p.Metadata().CaptureInfo.Timestamp *)
}.

(** [p.Layer(t)]: the first layer of type [t], [nil] when there is none. *)
Definition Packet_Layer (p : Packet) (t : LayerType) : option Layer :=
  find (fun l => LayerType_eqb (Layer_LayerType l) t) (pkt_Layers p).

(** [p.ApplicationLayer()]: the first application layer and its
    [Payload()], [nil] when there is none. *)
Definition Packet_ApplicationLayer (p : Packet) : option (list byte) :=
  match find (fun l => match l with L_App _ => true | _ => false end)
             (pkt_Layers p) with
  | Some (L_App payload) => Some payload
  | _ => None
  end.

(** The type assertions of a [gopacket.Layer] to a pointer to
    [layers.IPv4], [layers.TCP] or [layers.UDP]: a failed assertion
    panics. *)
Definition assert_IPv4 (l : Layer) : Outcome IPv4 :=
  match l with
  | L_IPv4 h => Ret h
  | _ => Panic "interface conversion: gopacket.Layer is not *layers.IPv4"
  end.

Definition assert_TCP (l : Layer) : Outcome TCP :=
  match l with
  | L_TCP h => Ret h
  | _ => Panic "interface conversion: gopacket.Layer is not *layers.TCP"
  end.

Definition assert_UDP (l : Layer) : Outcome UDP :=
  match l with
  | L_UDP h => Ret h
  | _ => Panic "interface conversion: gopacket.Layer is not *layers.UDP"
  end.

(* ================================================================== *)
(** * Markers, tagged packets, records *)

(** What a call of a marker does: it returns its tags or it panics. *)
Inductive MarkerResult : Type :=
| MTags (tags : list string)
| MPanic (v : string).

(** [type Marker func(gopacket.Packet) []string] *)
Definition Marker := Packet -> MarkerResult.

(** [type SeriesMarker func(...gopacket.Packet) []string] *)
Definition SeriesMarker := list Packet -> MarkerResult.

Record TaggedPacket : Type := mkTaggedPacket {
  tp_Packet : Packet;
  tp_Tags : list string
}.

(** [type Record struct] ([Record] is reserved in Rocq). *)
Record Record_ : Type := mkRecord {
  SrcIP : IP;
  TransportProto : string;
  SrcPort : uint16;
  DstIP : IP;
  DstPort : uint16;
  Timestamp : Time;
  Tags : list string;
  Payload : list byte;
  PayloadString : string
}.

Definition unpackIPv4 (p : Packet) : Outcome (option IPv4) :=
  match Packet_Layer p LayerTypeIPv4 with
  | None => Ret None
  | Some ip4Layer => obind (assert_IPv4 ip4Layer) (fun ip4 => Ret (Some ip4))
  end.

Definition unpackTCP (p : Packet) : Outcome (option TCP) :=
  match Packet_Layer p LayerTypeTCP with
  | None => Ret None
  | Some tcpLayer => obind (assert_TCP tcpLayer) (fun tcp => Ret (Some tcp))
  end.

(** The two errors of [NewRecord]; the design document calls them
    [UnsupportedNetworkLayer] and [UnsupportedTransport]. *)
Definition UnsupportedNetworkLayer : error := errors_New "not ip4 type packet".
Definition UnsupportedTransport : error := errors_New "nor tcp nor udp type packet".

(** The tail of [NewRecord], from [var payload []byte] on. *)
Definition fill_record (tp : TaggedPacket) (ip4 : IPv4)
    (srcPort dstPort : uint16) (transport : string) : Record_ :=
  let payload :=
    match Packet_ApplicationLayer (tp_Packet tp) with
    | Some bytes => bytes
    | None => []
    end in
  {| SrcIP := ip4_SrcIP ip4;
     DstIP := ip4_DstIP ip4;
     SrcPort := srcPort;
     DstPort := dstPort;
     Timestamp := pkt_Timestamp (tp_Packet tp);
     Payload := payload;
     PayloadString := string_of_list_byte payload;
     Tags := tp_Tags tp;
     TransportProto := transport |}.

Definition NewRecord (tp : TaggedPacket) : Outcome (result Record_) :=
  obind (unpackIPv4 (tp_Packet tp)) (fun ip4 =>
  match ip4 with
  | None => Ret (Err UnsupportedNetworkLayer)
  | Some ip4 =>
    let udpLayer := Packet_Layer (tp_Packet tp) LayerTypeUDP in
    let tcpLayer := Packet_Layer (tp_Packet tp) LayerTypeTCP in
    match tcpLayer, udpLayer with
    | Some tcpLayer, _ =>
        obind (assert_TCP tcpLayer) (fun tcp =>
        Ret (Ok (fill_record tp ip4 (uint16_of_TCPPort (tcp_SrcPort tcp))
                             (uint16_of_TCPPort (tcp_DstPort tcp)) "tcp")))
    | None, Some udpLayer =>
        obind (assert_UDP udpLayer) (fun udp =>
        Ret (Ok (fill_record tp ip4 (uint16_of_UDPPort (udp_SrcPort udp))
                             (uint16_of_UDPPort (udp_DstPort udp)) "udp")))
    | None, None => Ret (Err UnsupportedTransport)
    end
  end).

(* ================================================================== *)
(** * The outside world: events and environment *)

(** [*elastic.Client]; a [nil] client is [None] where one is stored. *)
Record Client : Type := mkClient { client_url : string }.

(** [*fastcache.Cache], an opaque handle. *)
Record Cache : Type := mkCache { cache_id : nat }.

(** Calls that leave the package, in the order they happen.  [EvNewRecord]
    is a ghost event: it marks a call of [NewRecord], so that "no record is
    built" can be read off a trace. *)
Inductive Event : Type :=
| EvNewClient (url : string)
| EvIndexExists (c : Client) (name : string)
| EvCreateIndex (c : Client) (name : string)
| EvIndexDoc (c : Client) (index type : string) (body : Record_)
| EvPrintln (line : string)
| EvLog (msg : string)
| EvNewRecord (tp : TaggedPacket).

Definition History := list Event.

(** The answers of the libraries outside the package.  Each may depend on
    everything that happened before the call. *)
Record Env : Type := mkEnv {
  elastic_NewClient : string -> History -> result Client;
  client_IndexExists : Client -> string -> History -> result bool;
  client_CreateIndex : Client -> string -> History -> option error;
  client_Index : Client -> string -> string -> Record_ -> History -> option error;
  json_Marshal : Record_ -> result string
}.

(** Effectful code: given the history, an outcome and the events emitted. *)
Definition M (A : Type) : Type := History -> Outcome A * list Event.

Definition ret {A} (a : A) : M A := fun _ => (Ret a, []).

Definition bind {A B} (m : M A) (k : A -> M B) : M B := fun h =>
  match m h with
  | (Ret a, es) => let (o, es') := k a (h ++ es) in (o, es ++ es')
  | (Panic v, es) => (Panic v, es)
  end.

Definition lift {A} (o : Outcome A) : M A := fun _ => (o, []).

(** An outside call: it is recorded and answered from the history. *)
Definition call {A} (e : Event) (answer : History -> A) : M A :=
  fun h => (Ret (answer h), [e]).

Declare Scope m_scope.
Delimit Scope m_scope with m.
Notation "x <- m ;; k" := (bind m (fun x => k))
  (at level 61, m at next level, right associativity) : m_scope.
Notation "m ;;; k" := (bind m (fun _ => k))
  (at level 61, right associativity) : m_scope.

(* ================================================================== *)
(** * Configuration *)

Definition indexName : string := "badcapt".
Definition docType : string := "bcrecord".

(** [type Badcapt struct]; the fields carry the prefix [b_] because the
    constants [indexName] and [docType] have the names of two of them. *)
Record Badcapt : Type := mkBadcapt {
  b_client : option Client;
  b_indexName : string;
  b_docType : string;
  b_markers : list Marker;
  b_seriesMarkers : list SeriesMarker;
  b_cache : option Cache;
  b_cacheSize : Z
}.

(** A configuration option (a function from a pointer to [Badcapt] to
    [error]), as the configuration it leaves behind and the error it
    returns. *)
Definition Opt : Type := Badcapt -> Badcapt * option error.

Definition set_client (v : option Client) (b : Badcapt) : Badcapt :=
  mkBadcapt v (b_indexName b) (b_docType b) (b_markers b)
            (b_seriesMarkers b) (b_cache b) (b_cacheSize b).
Definition set_indexName (v : string) (b : Badcapt) : Badcapt :=
  mkBadcapt (b_client b) v (b_docType b) (b_markers b)
            (b_seriesMarkers b) (b_cache b) (b_cacheSize b).
Definition set_docType (v : string) (b : Badcapt) : Badcapt :=
  mkBadcapt (b_client b) (b_indexName b) v (b_markers b)
            (b_seriesMarkers b) (b_cache b) (b_cacheSize b).
Definition set_markers (v : list Marker) (b : Badcapt) : Badcapt :=
  mkBadcapt (b_client b) (b_indexName b) (b_docType b) v
            (b_seriesMarkers b) (b_cache b) (b_cacheSize b).
Definition set_cache (v : option Cache) (b : Badcapt) : Badcapt :=
  mkBadcapt (b_client b) (b_indexName b) (b_docType b) (b_markers b)
            (b_seriesMarkers b) v (b_cacheSize b).
Definition set_cacheSize (v : Z) (b : Badcapt) : Badcapt :=
  mkBadcapt (b_client b) (b_indexName b) (b_docType b) (b_markers b)
            (b_seriesMarkers b) (b_cache b) v.

Definition AddPacketMarker (m : Marker) : Opt :=
  fun b => (set_markers (b_markers b ++ [m]) b, None).

Definition SetElastic (client : option Client) : Opt :=
  fun b => (set_client client b, None).

Definition SetElasticIndexName (name : string) : Opt :=
  fun b => (set_indexName name b, None).

Definition SetElasticDocType (doc : string) : Opt :=
  fun b => (set_docType doc b, None).

Definition SetCacheSize (size : Z) : Opt :=
  fun b => (set_cacheSize size b, None).

(** The loop [for _, f := range opts] in [New]. *)
Fixpoint apply_opts (opts : list Opt) (conf : Badcapt) : result Badcapt :=
  match opts with
  | [] => Ok conf
  | f :: rest =>
      match f conf with
      | (_, Some err) => Err err
      | (conf', None) => apply_opts rest conf'
      end
  end.

(** The loops of [handle] over the markers and over the series markers;
    [tags] is the slice built so far. *)
Fixpoint run_markers (ms : list Marker) (p : Packet) (tags : list string)
  : Outcome (list string) :=
  match ms with
  | [] => Ret tags
  | fn :: rest =>
      match fn p with
      | MTags ts => run_markers rest p (tags ++ ts)
      | MPanic v => Panic v
      end
  end.

Fixpoint run_seriesMarkers (ms : list SeriesMarker) (p : Packet)
    (tags : list string) : Outcome (list string) :=
  match ms with
  | [] => Ret tags
  | sfn :: rest =>
      match sfn [p] with
      | MTags ts => run_seriesMarkers rest p (tags ++ ts)
      | MPanic v => Panic v
      end
  end.

(** The first half of [handle]: the value of [tags] at [len(tags) == 0]. *)
Definition aggregate_tags (b : Badcapt) (p : Packet) : Outcome (list string) :=
  obind (run_markers (b_markers b) p [])
        (fun tags => run_seriesMarkers (b_seriesMarkers b) p tags).

Section Pipeline.

(** The libraries outside the package. *)
Variable env : Env.

(** The three built-in signature detectors; their bodies are not part of
    the pipeline and are taken as given. *)
Variables MiraiIdentifier ZmapIdentifier MasscanIdentifier : Marker.

Local Open Scope m_scope.

Definition defaultMarkers : list Marker :=
  [MiraiIdentifier; ZmapIdentifier; MasscanIdentifier].

Definition defaultSeriesMarkers : list SeriesMarker := [].

(* ---------------------------------------------------------------- *)
(** ** Export *)

Definition exportElastic (b : Badcapt) (record : Record_) : M (option error) :=
  match b_client b with
  | None => lift (Panic "invalid memory address or nil pointer dereference")
  | Some c =>
      call (EvIndexDoc c (b_indexName b) (b_docType b) record)
           (client_Index env c (b_indexName b) (b_docType b) record)
  end.

Definition exportScreen (record : Record_) : M (option error) :=
  match json_Marshal env record with
  | Err err => ret (Some err)
  | Ok data => call (EvPrintln data) (fun _ => tt) ;;; ret None
  end.

Definition export (b : Badcapt) (tp : TaggedPacket) : M (option error) :=
  call (EvNewRecord tp) (fun _ => tt) ;;;
  r <- lift (NewRecord tp) ;;
  match r with
  | Err err => ret (Some err)
  | Ok record =>
      match b_client b with
      | None => exportScreen record
      | Some _ => exportElastic b record
      end
  end.

(* ---------------------------------------------------------------- *)
(** ** Construction *)

(** The index check that ends [New] and sits in the middle of
    [NewConfig]: [IndexExists(indexName)], then [CreateIndex(indexName)]
    when the answer is no.  Both name the package constant. *)
Definition provision_index (c : Client) : M (option error) :=
  r <- call (EvIndexExists c indexName) (client_IndexExists env c indexName) ;;
  match r with
  | Err err => ret (Some err)
  | Ok exists_ =>
      if negb exists_ then
        call (EvCreateIndex c indexName) (client_CreateIndex env c indexName)
      else ret None
  end.

Definition New (opts : list Opt) : M (result Badcapt) :=
  let conf := {| b_client := None;
                 b_indexName := indexName;
                 b_docType := docType;
                 b_markers := defaultMarkers;
                 b_seriesMarkers := [];
                 b_cache := None;
                 b_cacheSize := 0 |} in
  match apply_opts opts conf with
  | Err err => ret (Err err)
  | Ok conf =>
      match b_client conf with
      | None => ret (Ok conf)
      | Some c =>
          err <- provision_index c ;;
          match err with
          | Some err => ret (Err err)
          | None => ret (Ok conf)
          end
      end
  end.

(** The configuration [New] hands to its options. *)
Definition initial_conf : Badcapt :=
  mkBadcapt None indexName docType defaultMarkers [] None 0.

Definition NewConfig (elasticLoc : string) (markers : list Marker)
  : M (result Badcapt) :=
  r <- call (EvNewClient elasticLoc) (elastic_NewClient env elasticLoc) ;;
  match r with
  | Err err => ret (Err err)
  | Ok client =>
      let conf := {| b_client := Some client;
                     b_indexName := indexName;
                     b_docType := docType;
                     b_markers := [];
                     b_seriesMarkers := [];
                     b_cache := None;
                     b_cacheSize := 0 |} in
      err <- provision_index client ;;
      match err with
      | Some err => ret (Err err)
      | None =>
          let conf := if Nat.eqb (List.length markers) 0
                      then set_markers defaultMarkers conf
                      else conf in
          ret (Ok conf)
      end
  end.

(* ---------------------------------------------------------------- *)
(** ** Dispatch *)

Definition handle (b : Badcapt) (p : Packet) : M (option error) :=
  tags <- lift (aggregate_tags b p) ;;
  if Nat.eqb (List.length tags) 0 then ret None
  else
    err <- export b (mkTaggedPacket p tags) ;;
    match err with
    | Some err => ret (Some err)
    | None => ret None
    end.

(** The body of the goroutine that [Listen] starts for each packet. *)
Definition Listen_task (b : Badcapt) (p : Packet) : M unit :=
  hErr <- handle b p ;;
  match hErr with
  | Some err => call (EvLog (Error err)) (fun _ => tt)
  | None => ret tt
  end.

End Pipeline.

(* ================================================================== *)
(** * Reading traces *)

(** The calls that hand a record to a backend: a line on standard output
    or a document sent to the search index. *)
Definition is_export_call (e : Event) : bool :=
  match e with
  | EvPrintln _ | EvIndexDoc _ _ _ _ => true
  | _ => false
  end.

Definition is_index_call (e : Event) : bool :=
  match e with
  | EvIndexDoc _ _ _ _ => true
  | _ => false
  end.

Definition is_provision_call (e : Event) : bool :=
  match e with
  | EvIndexExists _ _ | EvCreateIndex _ _ => true
  | _ => false
  end.

Definition is_log_call (e : Event) : bool :=
  match e with
  | EvLog _ => true
  | _ => false
  end.

Definition export_calls (es : list Event) : list Event := filter is_export_call es.
Definition log_calls (es : list Event) : list Event := filter is_log_call es.

(** The tags of one marker call; a call that panics has none. *)
Definition tags_of (r : MarkerResult) : list string :=
  match r with
  | MTags ts => ts
  | MPanic _ => []
  end.

(** The tags of the markers [ms] on [p], one after the other in the order
    of [ms]. *)
Definition tags_in_order (ms : list Marker) (p : Packet) : list string :=
  List.concat (map (fun m => tags_of (m p)) ms).

(** All of the markers [ms] return on [p]. *)
Definition all_return (ms : list Marker) (p : Packet) : Prop :=
  forall m, In m ms -> exists ts, m p = MTags ts.

(** Two configurations that agree on every field but [cache] and
    [cacheSize]. *)
Definition same_but_cache (b1 b2 : Badcapt) : Prop :=
  b_client b1 = b_client b2 /\
  b_indexName b1 = b_indexName b2 /\
  b_docType b1 = b_docType b2 /\
  b_markers b1 = b_markers b2 /\
  b_seriesMarkers b1 = b_seriesMarkers b2.

(* ================================================================== *)
(** * A test bench: an in-memory environment, markers and packets *)

Module Bench.

(** An index exists once a creation call for it is in the history; no
    call fails.  Marshalling is a stand-in that prints the transport and
    the tags. *)
Definition created (c : Client) (name : string) (e : Event) : bool :=
  match e with
  | EvCreateIndex c' name' =>
      String.eqb (client_url c') (client_url c) && String.eqb name' name
  | _ => false
  end.

Definition env : Env :=
  {| elastic_NewClient := fun url _ => Ok (mkClient url);
     client_IndexExists := fun c name h => Ok (existsb (created c name) h);
     client_CreateIndex := fun _ _ _ => None;
     client_Index := fun _ _ _ _ _ => None;
     json_Marshal := fun r =>
       Ok (TransportProto r ++ " " ++ String.concat "," (Tags r))%string |}.

Definition no_opinion : Marker := fun _ => MTags [].
(** Stand-ins for the three built-in detectors. *)
Definition mirai : Marker := fun _ => MTags [].
Definition zmap : Marker := fun _ => MTags [].
Definition masscan : Marker := fun p =>
  match Packet_Layer p LayerTypeTCP with
  | Some _ => MTags ["masscan"]
  | None => MTags []
  end.
Definition tag_masscan : Marker := fun _ => MTags ["masscan"].
Definition tag_custom : Marker := fun _ => MTags ["custom"].
Definition broken : Marker := fun _ => MPanic "index out of range".

Definition es : Client := mkClient "http://localhost:9200".

Definition host_a : IP := [x0a; x00; x00; x05].      (* 10.0.0.5 *)
Definition host_b : IP := [xcb; x00; x71; x09].      (* 203.0.113.9 *)

Definition ip_ab : Layer := L_IPv4 (mkIPv4 host_a host_b).
Definition tcp_telnet : Layer := L_TCP (mkTCP 51413%Z 23%Z).
Definition udp_dns : Layer := L_UDP (mkUDP 40000%Z 53%Z).

(** A TCP SYN from 10.0.0.5:51413 to 203.0.113.9:23. *)
Definition syn : Packet := mkPacket [L_Other 0; ip_ab; tcp_telnet] 1000%Z.
(** A UDP datagram with a payload. *)
Definition dns : Packet :=
  mkPacket [L_Other 0; ip_ab; udp_dns; L_App [x01; x02]] 1001%Z.
(** A packet that carries a UDP layer ahead of a TCP layer. *)
Definition both : Packet :=
  mkPacket [L_Other 0; ip_ab; udp_dns; tcp_telnet] 1002%Z.
(** A frame without an IPv4 layer (ARP, IPv6, ...). *)
Definition arp : Packet := mkPacket [L_Other 0; L_Other 7; tcp_telnet] 1003%Z.
(** An IPv4 packet that is neither TCP nor UDP (ICMP, ...). *)
Definition icmp : Packet := mkPacket [L_Other 0; ip_ab; L_Other 9] 1004%Z.

(** A console configuration with the given markers. *)
Definition console (ms : list Marker) : Badcapt :=
  mkBadcapt None indexName docType ms [] None 0.

(** A search-index configuration with the given markers. *)
Definition indexed (ms : list Marker) : Badcapt :=
  mkBadcapt (Some es) indexName docType ms [] None 0.

End Bench.

(* ================================================================== *)
(** * The capture loop *)

(** What one call of [packetSource.NextPacket()] hands back: a packet, the
    error [io.EOF], or another error. *)
Inductive ReadResult : Type :=
| ReadPacket (p : Packet)
| ReadEOF
| ReadError (err : error).

(** What [Listen] itself does, in order.  [CapGo b p] is the [go]
    statement that starts the per-packet task [Listen_task] of [b] on [p];
    the task runs beside the loop, so its own events are not part of this
    trace.  [CapOpenLive] carries the interface, the snap length and the
    promiscuous flag; the timeout is always [pcap.BlockForever]. *)
Inductive CaptureEvent : Type :=
| CapOpenLive (iface : string) (snaplen : Z) (promisc : bool)
| CapLog (msg : string)
| CapNextPacket
| CapGo (b : Badcapt) (p : Packet)
| CapClose.

(** The [for] loop of [Listen] against the answers [reads] of the packet
    source, first answer first.  The flag tells whether the loop was left
    ([break] on [io.EOF]); when the answers run out the loop is still
    waiting in [NextPacket]. *)
Fixpoint Listen_loop (b : Badcapt) (reads : list ReadResult)
  : bool * list CaptureEvent :=
  match reads with
  | [] => (false, [CapNextPacket])
  | ReadEOF :: _ => (true, [CapNextPacket])
  | ReadError err :: rest =>
      let (left, es) := Listen_loop b rest in
      (left, CapNextPacket :: CapLog (Error err) :: es)
  | ReadPacket p :: rest =>
      let (left, es) := Listen_loop b rest in
      (left, CapNextPacket :: CapGo b p :: es)
  end.

(** [Listen]: [opened] is the error of [pcap.OpenLive] ([None] when the
    interface opens).  The result is [None] while [Listen] has not
    returned, [Some r] when it returned [r]. *)
Definition Listen (b : Badcapt) (iface : string) (opened : option error)
    (reads : list ReadResult) : option (option error) * list CaptureEvent :=
  match opened with
  | Some err => (Some (Some err), [CapOpenLive iface 1600 true])
  | None =>
      let (left, es) := Listen_loop b reads in
      let trace := CapOpenLive iface 1600 true
                   :: CapLog ("Started capturing on iface " ++ iface)%string
                   :: es in
      if left then (Some None, trace ++ [CapClose]) else (None, trace)
  end.

(** The answers that come before the first [io.EOF]. *)
Fixpoint before_EOF (reads : list ReadResult) : list ReadResult :=
  match reads with
  | [] => []
  | ReadEOF :: _ => []
  | r :: rest => r :: before_EOF rest
  end.

Definition read_packets (reads : list ReadResult) : list Packet :=
  flat_map (fun r => match r with ReadPacket p => [p] | _ => [] end) reads.

Definition read_errors (reads : list ReadResult) : list error :=
  flat_map (fun r => match r with ReadError err => [err] | _ => [] end) reads.

(** The packets for which a task was started, the lines logged, and the
    number of reads and of closes, in a capture trace. *)
Definition spawned (es : list CaptureEvent) : list Packet :=
  flat_map (fun e => match e with CapGo _ p => [p] | _ => [] end) es.

Definition logged (es : list CaptureEvent) : list string :=
  flat_map (fun e => match e with CapLog msg => [msg] | _ => [] end) es.

Definition reads_made (es : list CaptureEvent) : nat :=
  List.length (filter (fun e => match e with CapNextPacket => true | _ => false end) es).

Definition closes_made (es : list CaptureEvent) : nat :=
  List.length (filter (fun e => match e with CapClose => true | _ => false end) es).

(* ================================================================== *)
(** * More ways to read a trace *)

(** The tags of the series markers [ss] on [p]; each is called with the
    one packet. *)
Definition series_tags_in_order (ss : list SeriesMarker) (p : Packet)
  : list string :=
  List.concat (map (fun s => tags_of (s [p])) ss).

Definition all_series_return (ss : list SeriesMarker) (p : Packet) : Prop :=
  forall s, In s ss -> exists ts, s [p] = MTags ts.

(** A packet has a layer of type [t]. *)
Definition has_layer (p : Packet) (t : LayerType) : Prop :=
  exists l, In l (pkt_Layers p) /\ Layer_LayerType l = t.

(** An environment in which the search index is out of reach and
    marshalling fails. *)
Module Outage.

Definition refused : error := foreign_error "elastic" "connection refused".
Definition unsupported : error := foreign_error "json" "unsupported value".

Definition env : Env :=
  {| elastic_NewClient := fun _ _ => Err refused;
     client_IndexExists := fun _ _ _ => Err refused;
     client_CreateIndex := fun _ _ _ => Some refused;
     client_Index := fun _ _ _ _ _ => Some refused;
     json_Marshal := fun _ => Err unsupported |}.

(** An option that fails. *)
Definition bad_option : Opt :=
  fun b => (b, Some (errors_New "bad option")).

(** A series marker that tags every packet. *)
Definition tag_series : SeriesMarker := fun _ => MTags ["series"].

(** A capture with a read error, two packets, the end of the stream and a
    packet after it. *)
Definition capture : list ReadResult :=
  [ReadPacket Bench.syn; ReadError refused; ReadPacket Bench.dns;
   ReadEOF; ReadPacket Bench.arp].

End Outage.

(* ================================================================== *)
(** * Record construction *)

Lemma LayerType_eqb_eq (a b : LayerType) : LayerType_eqb a b = true -> a = b.
Proof.
  destruct a, b; simpl; try discriminate; try reflexivity.
  intros H. apply Nat.eqb_eq in H. now subst.
Qed.

(** [p.Layer(t)] answers with a layer of type [t]. *)
Lemma Packet_Layer_type (p : Packet) (t : LayerType) (l : Layer) :
  Packet_Layer p t = Some l -> Layer_LayerType l = t.
Proof.
  unfold Packet_Layer. intros H.
  apply find_some in H. destruct H as [_ H].
  now apply LayerType_eqb_eq.
Qed.

Lemma Packet_Layer_IPv4 (p : Packet) (l : Layer) :
  Packet_Layer p LayerTypeIPv4 = Some l -> exists h, l = L_IPv4 h.
Proof.
  intros H. apply Packet_Layer_type in H.
  destruct l; simpl in H; try discriminate. now exists h.
Qed.

Lemma Packet_Layer_TCP (p : Packet) (l : Layer) :
  Packet_Layer p LayerTypeTCP = Some l -> exists h, l = L_TCP h.
Proof.
  intros H. apply Packet_Layer_type in H.
  destruct l; simpl in H; try discriminate. now exists h.
Qed.

Lemma Packet_Layer_UDP (p : Packet) (l : Layer) :
  Packet_Layer p LayerTypeUDP = Some l -> exists h, l = L_UDP h.
Proof.
  intros H. apply Packet_Layer_type in H.
  destruct l; simpl in H; try discriminate. now exists h.
Qed.

(** [NewRecord] decides on the first IPv4, TCP and UDP layers only. *)
Lemma NewRecord_cases (tp : TaggedPacket) :
  NewRecord tp =
  match Packet_Layer (tp_Packet tp) LayerTypeIPv4 with
  | Some (L_IPv4 ip4) =>
      match Packet_Layer (tp_Packet tp) LayerTypeTCP,
            Packet_Layer (tp_Packet tp) LayerTypeUDP with
      | Some (L_TCP tcp), _ =>
          Ret (Ok (fill_record tp ip4 (tcp_SrcPort tcp) (tcp_DstPort tcp) "tcp"))
      | None, Some (L_UDP udp) =>
          Ret (Ok (fill_record tp ip4 (udp_SrcPort udp) (udp_DstPort udp) "udp"))
      | _, _ => Ret (Err UnsupportedTransport)
      end
  | _ => Ret (Err UnsupportedNetworkLayer)
  end.
Proof.
  unfold NewRecord, unpackIPv4.
  destruct (Packet_Layer (tp_Packet tp) LayerTypeIPv4) as [l4|] eqn:E4;
    [|reflexivity].
  destruct (Packet_Layer_IPv4 _ _ E4) as [ip4 ->]. simpl.
  destruct (Packet_Layer (tp_Packet tp) LayerTypeTCP) as [lt|] eqn:Et.
  - destruct (Packet_Layer_TCP _ _ Et) as [tcp ->]. reflexivity.
  - destruct (Packet_Layer (tp_Packet tp) LayerTypeUDP) as [lu|] eqn:Eu;
      [|reflexivity].
    destruct (Packet_Layer_UDP _ _ Eu) as [udp ->]. reflexivity.
Qed.

(** No type assertion of [NewRecord] can fail: it always returns. *)
Lemma NewRecord_returns (tp : TaggedPacket) : exists r, NewRecord tp = Ret r.
Proof.
  rewrite NewRecord_cases.
  destruct (Packet_Layer (tp_Packet tp) LayerTypeIPv4) as [[]|];
    try (eexists; reflexivity).
  destruct (Packet_Layer (tp_Packet tp) LayerTypeTCP) as [[]|];
    destruct (Packet_Layer (tp_Packet tp) LayerTypeUDP) as [[]|];
    eexists; reflexivity.
Qed.

(** The only errors of [NewRecord] are its two missing-layer errors. *)
Lemma NewRecord_errors (tp : TaggedPacket) (e : error) :
  NewRecord tp = Ret (Err e) ->
  e = UnsupportedNetworkLayer \/ e = UnsupportedTransport.
Proof.
  rewrite NewRecord_cases.
  destruct (Packet_Layer (tp_Packet tp) LayerTypeIPv4) as [[]|];
    try (intros [= <-]; now left).
  destruct (Packet_Layer (tp_Packet tp) LayerTypeTCP) as [[]|];
    destruct (Packet_Layer (tp_Packet tp) LayerTypeUDP) as [[]|];
    intros H; try discriminate H; injection H as <-; now right.
Qed.

(** A record that [NewRecord] returns carries the tags it was given. *)
Lemma NewRecord_Tags (tp : TaggedPacket) (r : Record_) :
  NewRecord tp = Ret (Ok r) -> Tags r = tp_Tags tp.
Proof.
  rewrite NewRecord_cases.
  destruct (Packet_Layer (tp_Packet tp) LayerTypeIPv4) as [[]|];
    try discriminate.
  destruct (Packet_Layer (tp_Packet tp) LayerTypeTCP) as [[]|];
    destruct (Packet_Layer (tp_Packet tp) LayerTypeUDP) as [[]|];
    intros H; try discriminate H; injection H as <-; reflexivity.
Qed.

(** C2. A tagged packet with an IPv4 layer and a TCP layer gives a record
    whose transport is exactly "tcp" and whose ports are the TCP header's,
    whether or not a UDP layer is present as well; with an IPv4 layer, a
    UDP layer and no TCP layer the transport is exactly "udp" and the ports
    are the UDP header's.  The record is filled from one transport layer:
    its transport name and both of its ports come from the same header. *)
Theorem NewRecord_transport_precedence (tp : TaggedPacket) :
  Packet_Layer (tp_Packet tp) LayerTypeIPv4 <> None ->
  (forall tcp : TCP,
      Packet_Layer (tp_Packet tp) LayerTypeTCP = Some (L_TCP tcp) ->
      exists r, NewRecord tp = Ret (Ok r) /\
                TransportProto r = "tcp" /\
                SrcPort r = tcp_SrcPort tcp /\
                DstPort r = tcp_DstPort tcp) /\
  (forall udp : UDP,
      Packet_Layer (tp_Packet tp) LayerTypeTCP = None ->
      Packet_Layer (tp_Packet tp) LayerTypeUDP = Some (L_UDP udp) ->
      exists r, NewRecord tp = Ret (Ok r) /\
                TransportProto r = "udp" /\
                SrcPort r = udp_SrcPort udp /\
                DstPort r = udp_DstPort udp).
Proof.
  intros H4.
  destruct (Packet_Layer (tp_Packet tp) LayerTypeIPv4) as [l4|] eqn:E4;
    [clear H4|contradiction].
  destruct (Packet_Layer_IPv4 _ _ E4) as [ip4 ->].
  split.
  - intros tcp Et. rewrite NewRecord_cases, E4, Et.
    eexists; split; [reflexivity|]. repeat split.
  - intros udp Et Eu. rewrite NewRecord_cases, E4, Et, Eu.
    eexists; split; [reflexivity|]. repeat split.
Qed.

Lemma NewRecord_transport_precedence_witness :
  (exists r, NewRecord (mkTaggedPacket Bench.both ["masscan"]) = Ret (Ok r) /\
             TransportProto r = "tcp" /\
             SrcPort r = 51413%Z /\ DstPort r = 23%Z) /\
  (exists r, NewRecord (mkTaggedPacket Bench.dns ["masscan"]) = Ret (Ok r) /\
             TransportProto r = "udp" /\
             SrcPort r = 40000%Z /\ DstPort r = 53%Z).
Proof.
  split.
  - apply (proj1 (NewRecord_transport_precedence
                    (mkTaggedPacket Bench.both ["masscan"])
                    ltac:(discriminate)) (mkTCP 51413%Z 23%Z)).
    reflexivity.
  - apply (proj2 (NewRecord_transport_precedence
                    (mkTaggedPacket Bench.dns ["masscan"])
                    ltac:(discriminate)) (mkUDP 40000%Z 53%Z));
      reflexivity.
Defined.

(* ================================================================== *)
(** * Export and dispatch *)

Section PipelineFacts.

Variable env : Env.
Variables MiraiIdentifier ZmapIdentifier MasscanIdentifier : Marker.

(** What [export] does, by the outcome of [NewRecord]. *)
Lemma export_run (b : Badcapt) (tp : TaggedPacket) (h : History) :
  export env b tp h =
  match NewRecord tp with
  | Panic v => (Panic v, [EvNewRecord tp])
  | Ret (Err err) => (Ret (Some err), [EvNewRecord tp])
  | Ret (Ok record) =>
      match b_client b with
      | None =>
          match json_Marshal env record with
          | Err err => (Ret (Some err), [EvNewRecord tp])
          | Ok data => (Ret None, [EvNewRecord tp; EvPrintln data])
          end
      | Some c =>
          (Ret (client_Index env c (b_indexName b) (b_docType b) record
                             (h ++ [EvNewRecord tp])),
           [EvNewRecord tp;
            EvIndexDoc c (b_indexName b) (b_docType b) record])
      end
  end.
Proof.
  unfold export, exportScreen, exportElastic, bind, call, lift, ret.
  destruct (NewRecord tp) as [[record|err]|v]; simpl; try reflexivity.
  destruct (b_client b) as [c|]; simpl.
  - rewrite app_nil_r. reflexivity.
  - destruct (json_Marshal env record); reflexivity.
Qed.

(** What [handle] does, by the outcome of the marker loops. *)
Lemma handle_run (b : Badcapt) (p : Packet) (h : History) :
  handle env b p h =
  match aggregate_tags b p with
  | Panic v => (Panic v, [])
  | Ret [] => (Ret None, [])
  | Ret (t :: ts) => export env b (mkTaggedPacket p (t :: ts)) h
  end.
Proof.
  unfold handle, bind, lift, ret.
  destruct (aggregate_tags b p) as [[|t ts]|v]; simpl; try reflexivity.
  rewrite app_nil_r.
  destruct (export env b (mkTaggedPacket p (t :: ts)) h) as [[[err|]|v] es];
    rewrite ?app_nil_r; reflexivity.
Qed.

(** What the per-packet task of [Listen] does, by the result of
    [handle]. *)
Lemma Listen_task_run (b : Badcapt) (p : Packet) (h : History) :
  Listen_task env b p h =
  match handle env b p h with
  | (Panic v, es) => (Panic v, es)
  | (Ret None, es) => (Ret tt, es)
  | (Ret (Some err), es) => (Ret tt, es ++ [EvLog (Error err)])
  end.
Proof.
  unfold Listen_task, bind, call, ret.
  destruct (handle env b p h) as [[[err|]|v] es]; simpl;
    rewrite ?app_nil_r; reflexivity.
Qed.

(** Every event of [export] is the mark of its one [NewRecord] call or a
    call that hands over the record it built. *)
Lemma export_events (b : Badcapt) (tp : TaggedPacket) (h : History) (e : Event) :
  In e (snd (export env b tp h)) ->
  e = EvNewRecord tp \/ is_export_call e = true.
Proof.
  rewrite export_run.
  destruct (NewRecord tp) as [[record|err]|v]; simpl.
  - destruct (b_client b) as [c|]; simpl.
    + intros [<-|[<-|[]]]; auto.
    + destruct (json_Marshal env record); simpl.
      * intros [<-|[<-|[]]]; auto.
      * intros [<-|[]]; auto.
  - intros [<-|[]]; auto.
  - intros [<-|[]]; auto.
Qed.

(** When [NewRecord] returns an error, [export] returns it and reaches
    neither backend. *)
Lemma export_construction_error (b : Badcapt) (tp : TaggedPacket)
      (h : History) (err : error) :
  NewRecord tp = Ret (Err err) ->
  export env b tp h = (Ret (Some err), [EvNewRecord tp]).
Proof. intros H. rewrite export_run, H. reflexivity. Qed.

(** For a packet whose record cannot be built, [handle] reaches neither
    backend, whatever the markers say. *)
Lemma handle_construction_error (b : Badcapt) (p : Packet) (h : History)
      (err : error) :
  (forall tags, NewRecord (mkTaggedPacket p tags) = Ret (Err err)) ->
  export_calls (snd (handle env b p h)) = [].
Proof.
  intros H. rewrite handle_run.
  destruct (aggregate_tags b p) as [[|t ts]|v]; try reflexivity.
  rewrite (export_construction_error b _ h err (H _)). reflexivity.
Qed.

(** C3. A tagged packet without an IPv4 layer: [NewRecord] fails with the
    unsupported-network-layer error; [export] returns that error without
    a console write or an index call; and [handle] on such a packet makes
    no export call either. *)
Theorem no_IPv4_no_export (b : Badcapt) (tp : TaggedPacket) (h : History) :
  Packet_Layer (tp_Packet tp) LayerTypeIPv4 = None ->
  NewRecord tp = Ret (Err UnsupportedNetworkLayer) /\
  export env b tp h = (Ret (Some UnsupportedNetworkLayer), [EvNewRecord tp]) /\
  export_calls (snd (export env b tp h)) = [] /\
  export_calls (snd (handle env b (tp_Packet tp) h)) = [].
Proof.
  intros H4.
  assert (HN : forall tags,
             NewRecord (mkTaggedPacket (tp_Packet tp) tags)
             = Ret (Err UnsupportedNetworkLayer)).
  { intros tags. rewrite NewRecord_cases. simpl. now rewrite H4. }
  assert (HR : NewRecord tp = Ret (Err UnsupportedNetworkLayer)).
  { rewrite NewRecord_cases. now rewrite H4. }
  split; [exact HR|].
  rewrite (export_construction_error b tp h _ HR).
  repeat split.
  now apply handle_construction_error with (err := UnsupportedNetworkLayer).
Qed.

(** C4. A tagged packet with an IPv4 layer and neither a TCP nor a UDP
    layer: [NewRecord] fails with the unsupported-transport error, and
    neither [export] nor [handle] makes an export call for it. *)
Theorem no_transport_no_export (b : Badcapt) (tp : TaggedPacket) (h : History) :
  Packet_Layer (tp_Packet tp) LayerTypeIPv4 <> None ->
  Packet_Layer (tp_Packet tp) LayerTypeTCP = None ->
  Packet_Layer (tp_Packet tp) LayerTypeUDP = None ->
  NewRecord tp = Ret (Err UnsupportedTransport) /\
  export env b tp h = (Ret (Some UnsupportedTransport), [EvNewRecord tp]) /\
  export_calls (snd (export env b tp h)) = [] /\
  export_calls (snd (handle env b (tp_Packet tp) h)) = [].
Proof.
  intros H4 Ht Hu.
  destruct (Packet_Layer (tp_Packet tp) LayerTypeIPv4) as [l4|] eqn:E4;
    [clear H4|contradiction].
  destruct (Packet_Layer_IPv4 _ _ E4) as [ip4 ->].
  assert (HN : forall tags,
             NewRecord (mkTaggedPacket (tp_Packet tp) tags)
             = Ret (Err UnsupportedTransport)).
  { intros tags. rewrite NewRecord_cases. simpl. now rewrite E4, Ht, Hu. }
  assert (HR : NewRecord tp = Ret (Err UnsupportedTransport)).
  { rewrite NewRecord_cases. now rewrite E4, Ht, Hu. }
  split; [exact HR|].
  rewrite (export_construction_error b tp h _ HR).
  repeat split.
  now apply handle_construction_error with (err := UnsupportedTransport).
Qed.

(* ---------------------------------------------------------------- *)
(** ** The marker loops *)

Lemma run_markers_app (pre post : list Marker) (p : Packet)
      (acc : list string) :
  run_markers (pre ++ post) p acc =
  obind (run_markers pre p acc) (run_markers post p).
Proof.
  revert acc. induction pre as [|fn pre IH]; intros acc; simpl.
  - reflexivity.
  - destruct (fn p); [apply IH|reflexivity].
Qed.

(** When every marker returns, the loop appends their tags in the order
    of the list. *)
Lemma run_markers_in_order (ms : list Marker) (p : Packet)
      (acc : list string) :
  all_return ms p ->
  run_markers ms p acc = Ret (acc ++ tags_in_order ms p).
Proof.
  unfold all_return, tags_in_order.
  revert acc. induction ms as [|fn ms IH]; intros acc Hall; simpl.
  - now rewrite app_nil_r.
  - destruct (Hall fn (or_introl eq_refl)) as [ts Hfn].
    rewrite Hfn. simpl. rewrite IH.
    + now rewrite app_assoc.
    + intros m Hm. apply Hall. now right.
Qed.

(** When a marker panics, the loop stops there with its panic. *)
Lemma run_markers_panic (pre post : list Marker) (fn : Marker)
      (p : Packet) (acc : list string) (v : string) :
  all_return pre p ->
  fn p = MPanic v ->
  run_markers (pre ++ fn :: post) p acc = Panic v.
Proof.
  intros Hpre Hfn.
  rewrite run_markers_app, (run_markers_in_order pre p acc Hpre).
  simpl. now rewrite Hfn.
Qed.

(* ---------------------------------------------------------------- *)
(** ** Dispatch *)

(** C1. When the tags gathered from all markers and series markers are
    empty, [handle] returns [nil] and emits nothing: no [NewRecord] call,
    no console write, no index call.  And whatever the markers do, a
    tagged packet that [handle] passes on to [export] has at least one
    tag. *)
Theorem empty_tags_no_export (b : Badcapt) (p : Packet) (h : History) :
  (aggregate_tags b p = Ret [] -> handle env b p h = (Ret None, [])) /\
  (forall tp, In (EvNewRecord tp) (snd (handle env b p h)) ->
              tp_Tags tp <> []).
Proof.
  split.
  - intros H. rewrite handle_run, H. reflexivity.
  - intros tp. rewrite handle_run.
    destruct (aggregate_tags b p) as [[|t ts]|v]; simpl; try tauto.
    intros Hin. apply export_events in Hin.
    destruct Hin as [[= ->]|Hcall]; simpl in *; discriminate.
Qed.

(** C7, as the code has it.  A panic of a marker is not recovered: when
    the markers before it return and it panics, [handle] panics with the
    same value, whatever markers come after it, and so does the
    per-packet task; nothing is logged, built or exported. *)
Theorem marker_panic_propagates (b : Badcapt) (p : Packet) (h : History)
        (pre post : list Marker) (fn : Marker) (v : string) :
  b_markers b = pre ++ fn :: post ->
  all_return pre p ->
  fn p = MPanic v ->
  handle env b p h = (Panic v, []) /\
  Listen_task env b p h = (Panic v, []).
Proof.
  intros Hms Hpre Hfn.
  assert (Hh : handle env b p h = (Panic v, [])).
  { rewrite handle_run. unfold aggregate_tags.
    rewrite Hms, (run_markers_panic pre post fn p [] v Hpre Hfn).
    reflexivity. }
  split; [exact Hh|].
  rewrite Listen_task_run, Hh. reflexivity.
Qed.

(** C8, as the code has it.  When the markers tag a packet and record
    construction fails, no export call is made, [handle] returns the
    construction error, and the per-packet task of [Listen] writes that
    error to the log. *)
Theorem construction_error_dropped_and_logged (b : Badcapt) (p : Packet)
        (h : History) (tags : list string) (err : error) :
  aggregate_tags b p = Ret tags ->
  tags <> [] ->
  NewRecord (mkTaggedPacket p tags) = Ret (Err err) ->
  handle env b p h = (Ret (Some err), [EvNewRecord (mkTaggedPacket p tags)]) /\
  Listen_task env b p h =
    (Ret tt, [EvNewRecord (mkTaggedPacket p tags); EvLog (Error err)]) /\
  export_calls (snd (Listen_task env b p h)) = [] /\
  log_calls (snd (Listen_task env b p h)) = [EvLog (Error err)].
Proof.
  intros Hagg Hne Hrec.
  assert (Hh : handle env b p h
               = (Ret (Some err), [EvNewRecord (mkTaggedPacket p tags)])).
  { rewrite handle_run, Hagg.
    destruct tags as [|t ts]; [contradiction|].
    now apply export_construction_error. }
  assert (Hl : Listen_task env b p h
               = (Ret tt, [EvNewRecord (mkTaggedPacket p tags);
                           EvLog (Error err)])).
  { rewrite Listen_task_run, Hh. reflexivity. }
  rewrite Hl. repeat split; assumption.
Qed.

(** Setting the cache size changes the cache size only. *)
Lemma SetCacheSize_same_but_cache (size : Z) (b : Badcapt) :
  same_but_cache b (fst (SetCacheSize size b)) /\
  snd (SetCacheSize size b) = None.
Proof. unfold same_but_cache. simpl. repeat split. Qed.

(** C9. Two configurations that differ in [cache] and [cacheSize] only
    gather the same tags, and their [export], [handle] and per-packet
    task return the same value and emit the same events, on every packet
    and after every history. *)
Theorem cache_never_consulted (b1 b2 : Badcapt) :
  same_but_cache b1 b2 ->
  (forall p, aggregate_tags b1 p = aggregate_tags b2 p) /\
  (forall tp h, export env b1 tp h = export env b2 tp h) /\
  (forall p h, handle env b1 p h = handle env b2 p h) /\
  (forall p h, Listen_task env b1 p h = Listen_task env b2 p h).
Proof.
  intros (Hc & Hi & Hd & Hm & Hs).
  assert (Ha : forall p, aggregate_tags b1 p = aggregate_tags b2 p).
  { intros p. unfold aggregate_tags. now rewrite Hm, Hs. }
  assert (He : forall tp h, export env b1 tp h = export env b2 tp h).
  { intros tp h. rewrite !export_run. now rewrite Hc, Hi, Hd. }
  assert (Hh : forall p h, handle env b1 p h = handle env b2 p h).
  { intros p h. rewrite !handle_run, Ha.
    destruct (aggregate_tags b2 p) as [[|t ts]|v]; auto. }
  repeat split; auto.
  intros p h. rewrite !Listen_task_run. now rewrite Hh.
Qed.

(* ---------------------------------------------------------------- *)
(** ** Construction *)

Local Abbreviation New' :=
  (New env MiraiIdentifier ZmapIdentifier MasscanIdentifier).
Local Abbreviation NewConfig' :=
  (NewConfig env MiraiIdentifier ZmapIdentifier MasscanIdentifier).
Local Abbreviation defaults :=
  (defaultMarkers MiraiIdentifier ZmapIdentifier MasscanIdentifier).
Local Abbreviation initial :=
  (initial_conf MiraiIdentifier ZmapIdentifier MasscanIdentifier).

(** What the index check does, by the answer of the search index. *)
Lemma provision_index_run (c : Client) (h : History) :
  provision_index env c h =
  match client_IndexExists env c indexName h with
  | Err err => (Ret (Some err), [EvIndexExists c indexName])
  | Ok true => (Ret None, [EvIndexExists c indexName])
  | Ok false =>
      (Ret (client_CreateIndex env c indexName
                               (h ++ [EvIndexExists c indexName])),
       [EvIndexExists c indexName; EvCreateIndex c indexName])
  end.
Proof.
  unfold provision_index, bind, call, ret.
  destruct (client_IndexExists env c indexName h) as [[|]|err];
    reflexivity.
Qed.

(** The index check asks about, and creates, the index named by the
    constant [indexName]: once each at most, creation after the check. *)
Lemma provision_index_events (c : Client) (h : History) :
  snd (provision_index env c h) = [EvIndexExists c indexName] \/
  snd (provision_index env c h)
    = [EvIndexExists c indexName; EvCreateIndex c indexName].
Proof.
  rewrite provision_index_run.
  destruct (client_IndexExists env c indexName h) as [[|]|err]; auto.
Qed.

(** What [New] does, by the outcome of its options. *)
Lemma New_run (opts : list Opt) (h : History) :
  New' opts h =
  match apply_opts opts initial with
  | Err err => (Ret (Err err), [])
  | Ok conf =>
      match b_client conf with
      | None => (Ret (Ok conf), [])
      | Some c =>
          match provision_index env c h with
          | (Ret None, es) => (Ret (Ok conf), es)
          | (Ret (Some err), es) => (Ret (Err err), es)
          | (Panic v, es) => (Panic v, es)
          end
      end
  end.
Proof.
  unfold New, initial_conf, bind, ret.
  destruct (apply_opts opts _) as [conf|err]; [|reflexivity].
  destruct (b_client conf) as [c|]; [|reflexivity].
  destruct (provision_index env c h) as [[[err|]|v] es];
    rewrite ?app_nil_r; reflexivity.
Qed.

(** The events of [New] never name the configured index: with a client
    they are the check, and at most one creation, of [indexName]. *)
Lemma New_events (opts : list Opt) (h : History) :
  snd (New' opts h) = [] \/
  exists c,
    snd (New' opts h) = [EvIndexExists c indexName] \/
    snd (New' opts h) = [EvIndexExists c indexName; EvCreateIndex c indexName].
Proof.
  rewrite New_run.
  destruct (apply_opts opts initial) as [conf|err]; [|now left].
  destruct (b_client conf) as [c|]; [|now left].
  right. exists c.
  destruct (provision_index_events c h) as [H|H];
    destruct (provision_index env c h) as [[[err|]|v] es];
    simpl in *; auto.
Qed.

(** Options that add markers append them, in order, to the markers
    already there. *)
Lemma apply_opts_AddPacketMarker (ms : list Marker) (conf : Badcapt) :
  apply_opts (map AddPacketMarker ms) conf
  = Ok (set_markers (b_markers conf ++ ms) conf).
Proof.
  revert conf. induction ms as [|m ms IH]; intros conf; simpl.
  - rewrite app_nil_r. now destruct conf.
  - rewrite IH. simpl. now rewrite <- app_assoc.
Qed.

(** [New] with marker options registers the defaults followed by the
    additions. *)
Lemma New_registers_markers (ms : list Marker) (h : History) :
  New' (map AddPacketMarker ms) h
  = (Ret (Ok (set_markers (defaults ++ ms) initial)), []).
Proof. rewrite New_run, apply_opts_AddPacketMarker. reflexivity. Qed.

(** [NewConfig] registers the defaults when it is given no marker, and
    nothing at all when it is given some. *)
Lemma NewConfig_markers (elasticLoc : string) (markers : list Marker)
      (h : History) (conf : Badcapt) (es : list Event) :
  NewConfig' elasticLoc markers h = (Ret (Ok conf), es) ->
  b_markers conf = match markers with [] => defaults | _ :: _ => [] end.
Proof.
  unfold NewConfig, bind, call, ret.
  destruct (elastic_NewClient env elasticLoc h) as [client|err];
    [|discriminate].
  destruct (provision_index env client _) as [[[err|]|v] es'];
    try discriminate.
  destruct markers; simpl; intros [= <- _]; reflexivity.
Qed.

(** C10. [New] without options returns, with a [nil] error, the
    configuration that has a [nil] client, exactly the three default
    markers, no series marker, the default index name and document type;
    it makes no call at all, so no index check and no index creation; and
    the configuration it returns never sends a record to the search
    index. *)
Theorem New_no_options (h : History) :
  let conf := {| b_client := None;
                 b_indexName := "badcapt";
                 b_docType := "bcrecord";
                 b_markers := [MiraiIdentifier; ZmapIdentifier;
                               MasscanIdentifier];
                 b_seriesMarkers := [];
                 b_cache := None;
                 b_cacheSize := 0 |} in
  New' [] h = (Ret (Ok conf), []) /\
  (forall tp h', existsb is_index_call (snd (export env conf tp h')) = false).
Proof.
  intros conf. split; [reflexivity|].
  intros tp h'. rewrite export_run.
  destruct (NewRecord tp) as [[record|err]|v]; simpl; try reflexivity.
  destruct (json_Marshal env record); reflexivity.
Qed.

End PipelineFacts.

(* ================================================================== *)
(** * The properties on the test bench *)

Lemma empty_tags_no_export_witness :
  handle Bench.env (Bench.console [Bench.no_opinion]) Bench.dns []
  = (Ret None, []) /\
  tp_Tags (mkTaggedPacket Bench.syn ["masscan"]) <> [].
Proof.
  split.
  - apply (proj1 (empty_tags_no_export
                    Bench.env (Bench.console [Bench.no_opinion]) Bench.dns [])).
    reflexivity.
  - apply (proj2 (empty_tags_no_export
                    Bench.env (Bench.console [Bench.tag_masscan]) Bench.syn [])).
    simpl. left. reflexivity.
Defined.

Lemma no_IPv4_no_export_witness :
  NewRecord (mkTaggedPacket Bench.arp ["masscan"])
  = Ret (Err UnsupportedNetworkLayer) /\
  export Bench.env (Bench.indexed [Bench.tag_masscan])
         (mkTaggedPacket Bench.arp ["masscan"]) []
  = (Ret (Some UnsupportedNetworkLayer),
     [EvNewRecord (mkTaggedPacket Bench.arp ["masscan"])]) /\
  export_calls (snd (export Bench.env (Bench.indexed [Bench.tag_masscan])
                            (mkTaggedPacket Bench.arp ["masscan"]) [])) = [] /\
  export_calls (snd (handle Bench.env (Bench.indexed [Bench.tag_masscan])
                            Bench.arp [])) = [].
Proof.
  apply (no_IPv4_no_export Bench.env (Bench.indexed [Bench.tag_masscan])
                           (mkTaggedPacket Bench.arp ["masscan"]) []).
  reflexivity.
Defined.

Lemma no_transport_no_export_witness :
  NewRecord (mkTaggedPacket Bench.icmp ["masscan"])
  = Ret (Err UnsupportedTransport) /\
  export Bench.env (Bench.console [Bench.tag_masscan])
         (mkTaggedPacket Bench.icmp ["masscan"]) []
  = (Ret (Some UnsupportedTransport),
     [EvNewRecord (mkTaggedPacket Bench.icmp ["masscan"])]) /\
  export_calls (snd (export Bench.env (Bench.console [Bench.tag_masscan])
                            (mkTaggedPacket Bench.icmp ["masscan"]) [])) = [] /\
  export_calls (snd (handle Bench.env (Bench.console [Bench.tag_masscan])
                            Bench.icmp [])) = [].
Proof.
  apply (no_transport_no_export Bench.env (Bench.console [Bench.tag_masscan])
                                (mkTaggedPacket Bench.icmp ["masscan"]) []).
  - discriminate.
  - reflexivity.
  - reflexivity.
Defined.

(** C7, at a packet.  The first marker panics, the second would tag the
    packet; [handle] panics, the second marker's tag is neither gathered
    nor exported, and the per-packet task logs nothing. *)
Lemma marker_panic_not_isolated :
  Bench.tag_masscan Bench.syn = MTags ["masscan"] /\
  handle Bench.env (Bench.console [Bench.broken; Bench.tag_masscan])
         Bench.syn []
  = (Panic "index out of range", []) /\
  Listen_task Bench.env (Bench.console [Bench.broken; Bench.tag_masscan])
              Bench.syn []
  = (Panic "index out of range", []) /\
  handle Bench.env (Bench.console [Bench.tag_masscan]) Bench.syn []
  = (Ret None, [EvNewRecord (mkTaggedPacket Bench.syn ["masscan"]);
                EvPrintln "tcp masscan"]).
Proof. repeat split. Qed.

Lemma marker_panic_propagates_witness :
  handle Bench.env
         (Bench.console [Bench.no_opinion; Bench.broken; Bench.tag_masscan])
         Bench.syn []
  = (Panic "index out of range", []) /\
  Listen_task Bench.env
         (Bench.console [Bench.no_opinion; Bench.broken; Bench.tag_masscan])
         Bench.syn []
  = (Panic "index out of range", []).
Proof.
  apply (marker_panic_propagates
           Bench.env
           (Bench.console [Bench.no_opinion; Bench.broken; Bench.tag_masscan])
           Bench.syn [] [Bench.no_opinion] [Bench.tag_masscan] Bench.broken
           "index out of range").
  - reflexivity.
  - intros m [<-|[]]. exists []. reflexivity.
  - reflexivity.
Defined.

(** C8, at a packet.  A frame without an IPv4 layer that a marker tags:
    record construction fails for the missing layer, and the per-packet
    task writes the error to the log. *)
Lemma missing_layer_is_logged :
  NewRecord (mkTaggedPacket Bench.arp ["masscan"])
  = Ret (Err UnsupportedNetworkLayer) /\
  Listen_task Bench.env (Bench.console [Bench.tag_masscan]) Bench.arp []
  = (Ret tt, [EvNewRecord (mkTaggedPacket Bench.arp ["masscan"]);
              EvLog "not ip4 type packet"]) /\
  log_calls (snd (Listen_task Bench.env (Bench.console [Bench.tag_masscan])
                              Bench.arp []))
  <> [].
Proof. repeat split. discriminate. Qed.

Lemma construction_error_dropped_and_logged_witness :
  handle Bench.env (Bench.console [Bench.tag_masscan]) Bench.icmp []
  = (Ret (Some UnsupportedTransport),
     [EvNewRecord (mkTaggedPacket Bench.icmp ["masscan"])]) /\
  Listen_task Bench.env (Bench.console [Bench.tag_masscan]) Bench.icmp []
  = (Ret tt, [EvNewRecord (mkTaggedPacket Bench.icmp ["masscan"]);
              EvLog (Error UnsupportedTransport)]) /\
  export_calls (snd (Listen_task Bench.env (Bench.console [Bench.tag_masscan])
                                 Bench.icmp [])) = [] /\
  log_calls (snd (Listen_task Bench.env (Bench.console [Bench.tag_masscan])
                              Bench.icmp []))
  = [EvLog (Error UnsupportedTransport)].
Proof.
  apply (construction_error_dropped_and_logged
           Bench.env (Bench.console [Bench.tag_masscan]) Bench.icmp []
           ["masscan"] UnsupportedTransport).
  - reflexivity.
  - discriminate.
  - reflexivity.
Defined.

Lemma cache_never_consulted_witness :
  let b1 := Bench.indexed [Bench.tag_masscan] in
  let b2 := set_cache (Some (mkCache 1)) (fst (SetCacheSize 4096 b1)) in
  b_cacheSize b1 <> b_cacheSize b2 /\
  b_cache b1 <> b_cache b2 /\
  handle Bench.env b1 Bench.syn [] = handle Bench.env b2 Bench.syn [] /\
  export Bench.env b1 (mkTaggedPacket Bench.dns ["x"]) []
  = export Bench.env b2 (mkTaggedPacket Bench.dns ["x"]) [].
Proof.
  intros b1 b2.
  split; [discriminate|]. split; [discriminate|].
  assert (H : same_but_cache b1 b2) by (repeat split).
  split.
  - apply (proj1 (proj2 (proj2 (cache_never_consulted Bench.env b1 b2 H)))).
  - apply (proj1 (proj2 (cache_never_consulted Bench.env b1 b2 H))).
Defined.

(** C5, at a call.  [NewConfig] given one marker returns a configuration
    with no marker at all, neither the defaults nor the one supplied, so a
    packet that both a default and the supplied marker tag is dropped;
    [New] with the same marker added registers the defaults followed by
    it, and gathers their tags in that order. *)
Theorem NewConfig_ignores_supplied_markers :
  exists conf es,
    NewConfig Bench.env Bench.mirai Bench.zmap Bench.masscan
              "http://localhost:9200" [Bench.tag_custom] []
    = (Ret (Ok conf), es) /\
    b_markers conf = [] /\
    handle Bench.env conf Bench.syn es = (Ret None, []) /\
    exists conf',
      fst (New Bench.env Bench.mirai Bench.zmap Bench.masscan
               [SetElastic (Some Bench.es); AddPacketMarker Bench.tag_custom] [])
      = Ret (Ok conf') /\
      b_markers conf'
      = [Bench.mirai; Bench.zmap; Bench.masscan; Bench.tag_custom] /\
      aggregate_tags conf' Bench.syn = Ret ["masscan"; "custom"].
Proof.
  do 2 eexists. split; [reflexivity|]. split; [reflexivity|].
  split; [reflexivity|].
  eexists. split; [reflexivity|]. split; reflexivity.
Qed.

(** C6, at a call.  With the index name set to "scans" and a search index
    that holds no index yet, [New] checks and creates the index "badcapt";
    the configuration it returns then sends its documents to "scans", an
    index that construction neither checked nor created. *)
Theorem New_provisions_constant_index :
  let tp := mkTaggedPacket Bench.syn ["masscan"] in
  exists conf r,
    New Bench.env Bench.mirai Bench.zmap Bench.masscan
        [SetElastic (Some Bench.es); SetElasticIndexName "scans"] []
    = (Ret (Ok conf),
       [EvIndexExists Bench.es "badcapt"; EvCreateIndex Bench.es "badcapt"]) /\
    b_indexName conf = "scans" /\
    export Bench.env conf tp
           [EvIndexExists Bench.es "badcapt"; EvCreateIndex Bench.es "badcapt"]
    = (Ret None, [EvNewRecord tp; EvIndexDoc Bench.es "scans" "bcrecord" r]).
Proof.
  intros tp. do 2 eexists.
  split; [reflexivity|]. split; reflexivity.
Qed.

(* ================================================================== *)
(** * Further properties: packets and records *)

Lemma LayerType_eqb_refl (t : LayerType) : LayerType_eqb t t = true.
Proof. destruct t; simpl; auto using Nat.eqb_refl. Qed.

(** [p.Layer(t)] is [nil] exactly when no layer of [p] has type [t]. *)
Lemma Packet_Layer_has (p : Packet) (t : LayerType) :
  Packet_Layer p t <> None <-> has_layer p t.
Proof.
  unfold Packet_Layer, has_layer. split.
  - destruct (find _ (pkt_Layers p)) as [l|] eqn:E; [intros _|tauto].
    apply find_some in E. destruct E as [Hin Ht].
    exists l. split; [exact Hin|now apply LayerType_eqb_eq].
  - intros (l & Hin & Ht) E.
    apply (find_none _ _ E) in Hin. simpl in Hin.
    rewrite Ht, LayerType_eqb_refl in Hin. discriminate.
Qed.

(** X1. [NewRecord] returns a record exactly for the packets that have an
    IPv4 layer and a TCP or a UDP layer, and it never panics: none of its
    type assertions can fail. *)
Theorem NewRecord_succeeds_iff (tp : TaggedPacket) :
  ((exists r, NewRecord tp = Ret (Ok r)) <->
   has_layer (tp_Packet tp) LayerTypeIPv4 /\
   (has_layer (tp_Packet tp) LayerTypeTCP \/
    has_layer (tp_Packet tp) LayerTypeUDP)) /\
  (forall v, NewRecord tp <> Panic v).
Proof.
  rewrite <- !Packet_Layer_has. rewrite NewRecord_cases.
  destruct (Packet_Layer (tp_Packet tp) LayerTypeIPv4) as [l4|] eqn:E4.
  - destruct (Packet_Layer_IPv4 _ _ E4) as [ip4 ->].
    destruct (Packet_Layer (tp_Packet tp) LayerTypeTCP) as [lt|] eqn:Et.
    + destruct (Packet_Layer_TCP _ _ Et) as [tcp ->].
      split; [|discriminate]. split.
      * intros _. split; [discriminate|left; discriminate].
      * intros _. eexists. reflexivity.
    + destruct (Packet_Layer (tp_Packet tp) LayerTypeUDP) as [lu|] eqn:Eu.
      * destruct (Packet_Layer_UDP _ _ Eu) as [udp ->].
        split; [|discriminate]. split.
        -- intros _. split; [discriminate|right; discriminate].
        -- intros _. eexists. reflexivity.
      * split; [|discriminate]. split.
        -- intros [r Hr]. discriminate Hr.
        -- intros [_ [H|H]]; now elim H.
  - split; [|discriminate]. split.
    + intros [r Hr]. discriminate Hr.
    + intros [H _]. now elim H.
Qed.

Lemma NewRecord_succeeds_iff_witness :
  exists r, NewRecord (mkTaggedPacket Bench.dns ["masscan"]) = Ret (Ok r).
Proof.
  apply (proj2 (proj1 (NewRecord_succeeds_iff
                         (mkTaggedPacket Bench.dns ["masscan"])))).
  split.
  - exists Bench.ip_ab. split; [simpl; tauto|reflexivity].
  - right. exists Bench.udp_dns. split; [simpl; tauto|reflexivity].
Defined.

(** X2. A record that [NewRecord] returns takes its addresses from the
    first IPv4 header, its timestamp from the capture metadata of the
    packet and its tags from the tagged packet; its payload is the payload
    of the application layer, empty when there is none; the payload string
    holds the same bytes as the payload; and its transport is "tcp" or
    "udp". *)
Theorem NewRecord_fields (tp : TaggedPacket) (r : Record_) :
  NewRecord tp = Ret (Ok r) ->
  (exists ip4, Packet_Layer (tp_Packet tp) LayerTypeIPv4 = Some (L_IPv4 ip4) /\
               SrcIP r = ip4_SrcIP ip4 /\ DstIP r = ip4_DstIP ip4) /\
  Timestamp r = pkt_Timestamp (tp_Packet tp) /\
  Tags r = tp_Tags tp /\
  Payload r = match Packet_ApplicationLayer (tp_Packet tp) with
              | Some bytes => bytes
              | None => []
              end /\
  list_byte_of_string (PayloadString r) = Payload r /\
  (TransportProto r = "tcp" \/ TransportProto r = "udp").
Proof.
  rewrite NewRecord_cases.
  destruct (Packet_Layer (tp_Packet tp) LayerTypeIPv4) as [[ip4| | | |]|];
    try discriminate.
  destruct (Packet_Layer (tp_Packet tp) LayerTypeTCP) as [[]|];
    destruct (Packet_Layer (tp_Packet tp) LayerTypeUDP) as [[]|];
    intros H; try discriminate H; injection H as <-; simpl;
    (split; [exists ip4; auto|]);
    rewrite list_byte_of_string_of_list_byte; auto 10.
Qed.

Lemma NewRecord_fields_witness :
  let r := fill_record (mkTaggedPacket Bench.dns ["masscan"])
                       (mkIPv4 Bench.host_a Bench.host_b)
                       40000%Z 53%Z "udp" in
  Timestamp r = 1001%Z /\
  Tags r = ["masscan"] /\
  Payload r = [x01; x02] /\
  list_byte_of_string (PayloadString r) = Payload r.
Proof.
  intros r.
  destruct (NewRecord_fields (mkTaggedPacket Bench.dns ["masscan"]) r
                             eq_refl)
    as (_ & Ht & Hg & Hp & Hs & _).
  repeat split; assumption.
Defined.

(** X3. [unpackIPv4] and [unpackTCP] never panic; each returns [nil]
    exactly when the packet has no layer of its type, and the header it
    returns otherwise is a layer of the packet. *)
Theorem unpack_nil_iff (p : Packet) :
  (unpackIPv4 p = Ret None <-> ~ has_layer p LayerTypeIPv4) /\
  (unpackTCP p = Ret None <-> ~ has_layer p LayerTypeTCP) /\
  (forall v, unpackIPv4 p <> Panic v) /\
  (forall v, unpackTCP p <> Panic v) /\
  (forall h, unpackIPv4 p = Ret (Some h) -> In (L_IPv4 h) (pkt_Layers p)) /\
  (forall h, unpackTCP p = Ret (Some h) -> In (L_TCP h) (pkt_Layers p)).
Proof.
  rewrite <- !Packet_Layer_has. unfold unpackIPv4, unpackTCP.
  assert (Hin : forall t l, Packet_Layer p t = Some l -> In l (pkt_Layers p)).
  { unfold Packet_Layer. intros t l E. now apply find_some in E. }
  destruct (Packet_Layer p LayerTypeIPv4) as [l4|] eqn:E4;
    destruct (Packet_Layer p LayerTypeTCP) as [lt|] eqn:Et;
    try (destruct (Packet_Layer_IPv4 _ _ E4) as [ip4 ->]);
    try (destruct (Packet_Layer_TCP _ _ Et) as [tcp ->]);
    simpl; repeat split; try discriminate; try tauto;
    try (intros H; exfalso; apply H; discriminate);
    try (intros h [= <-]; eapply Hin; eassumption).
Qed.

Lemma unpack_nil_iff_witness :
  unpackIPv4 Bench.arp = Ret None /\
  In (L_TCP (mkTCP 51413%Z 23%Z)) (pkt_Layers Bench.arp).
Proof.
  split.
  - apply (proj2 (proj1 (unpack_nil_iff Bench.arp))).
    intros (l & Hl & Ht). simpl in Hl.
    destruct Hl as [<-|[<-|[<-|[]]]]; discriminate Ht.
  - apply (proj2 (proj2 (proj2 (proj2 (proj2 (unpack_nil_iff Bench.arp)))))).
    reflexivity.
Defined.

(* ================================================================== *)
(** * Further properties: export and dispatch *)

Section ExportFacts.

Variable env : Env.

(** X4. With a [nil] client [export] writes to the console only: it never
    calls the search index; when marshalling fails it returns that error
    and prints nothing; when marshalling succeeds it prints the one line
    and returns [nil]. *)
Theorem export_console (b : Badcapt) (tp : TaggedPacket) (h : History) :
  b_client b = None ->
  existsb is_index_call (snd (export env b tp h)) = false /\
  (forall r err, NewRecord tp = Ret (Ok r) -> json_Marshal env r = Err err ->
     export env b tp h = (Ret (Some err), [EvNewRecord tp])) /\
  (forall r data, NewRecord tp = Ret (Ok r) -> json_Marshal env r = Ok data ->
     export env b tp h = (Ret None, [EvNewRecord tp; EvPrintln data])).
Proof.
  intros Hc. rewrite export_run, Hc. repeat split.
  - destruct (NewRecord tp) as [[r|err]|v]; simpl; try reflexivity.
    destruct (json_Marshal env r); reflexivity.
  - intros r err -> ->. reflexivity.
  - intros r data -> ->. reflexivity.
Qed.

(** X5. With a client [export] sends the record that [NewRecord] built to
    the search index once, under the index name and document type of the
    configuration, prints nothing, and returns what the client answered,
    error or not. *)
Theorem export_elastic (b : Badcapt) (tp : TaggedPacket) (h : History)
        (c : Client) (r : Record_) :
  b_client b = Some c ->
  NewRecord tp = Ret (Ok r) ->
  export env b tp h
  = (Ret (client_Index env c (b_indexName b) (b_docType b) r
                       (h ++ [EvNewRecord tp])),
     [EvNewRecord tp; EvIndexDoc c (b_indexName b) (b_docType b) r]) /\
  export_calls (snd (export env b tp h))
  = [EvIndexDoc c (b_indexName b) (b_docType b) r].
Proof.
  intros Hc Hr. rewrite export_run, Hc, Hr. split; reflexivity.
Qed.

(** X6. Whatever the configuration, the packet and the environment,
    [handle] makes at most one export call and at most one [NewRecord]
    call, writes nothing to the log, and makes no call that checks for or
    creates an index or a client. *)
Theorem handle_footprint (b : Badcapt) (p : Packet) (h : History) :
  List.length (export_calls (snd (handle env b p h))) <= 1 /\
  log_calls (snd (handle env b p h)) = [] /\
  filter is_provision_call (snd (handle env b p h)) = [] /\
  List.length (filter (fun e => negb (is_export_call e))
                      (snd (handle env b p h))) <= 1.
Proof.
  rewrite handle_run.
  destruct (aggregate_tags b p) as [[|t ts]|v]; simpl; auto.
  rewrite export_run.
  destruct (NewRecord _) as [[r|err]|v]; simpl; auto.
  destruct (b_client b) as [c|]; simpl; auto.
  destruct (json_Marshal env r); simpl; auto.
Qed.

(** X7. The per-packet task of [Listen] logs exactly the error that
    [handle] returned, nothing when [handle] returned [nil] or panicked,
    and adds no export call of its own. *)
Theorem Listen_task_logs_handle_error (b : Badcapt) (p : Packet) (h : History) :
  log_calls (snd (Listen_task env b p h))
  = match fst (handle env b p h) with
    | Ret (Some err) => [EvLog (Error err)]
    | _ => []
    end /\
  export_calls (snd (Listen_task env b p h))
  = export_calls (snd (handle env b p h)).
Proof.
  rewrite Listen_task_run.
  destruct (handle_footprint b p h) as (_ & Hlog & _).
  destruct (handle env b p h) as [[[err|]|v] es]; simpl in *;
    unfold log_calls, export_calls in *;
    rewrite ?filter_app, ?Hlog, ?app_nil_r; auto.
Qed.

(** X8. A tagged packet whose record is built and marshalled goes to the
    console as one line: [handle] returns [nil], the task logs nothing, and
    the record carries all the gathered tags. *)
Theorem dispatch_to_console (b : Badcapt) (p : Packet) (h : History)
        (tags : list string) (r : Record_) (data : string) :
  b_client b = None ->
  aggregate_tags b p = Ret tags ->
  tags <> [] ->
  NewRecord (mkTaggedPacket p tags) = Ret (Ok r) ->
  json_Marshal env r = Ok data ->
  Listen_task env b p h
  = (Ret tt, [EvNewRecord (mkTaggedPacket p tags); EvPrintln data]) /\
  Tags r = tags.
Proof.
  intros Hc Hagg Hne Hr Hm.
  split; [|now apply NewRecord_Tags in Hr].
  rewrite Listen_task_run, handle_run, Hagg.
  destruct tags as [|t ts]; [contradiction|].
  rewrite export_run, Hr, Hc, Hm. reflexivity.
Qed.

(** X9. When the search index refuses a document, the error comes back
    through [export] and [handle] and is logged by the task; the index call
    is made once and not repeated. *)
Theorem index_failure_logged_once (b : Badcapt) (p : Packet) (h : History)
        (tags : list string) (c : Client) (r : Record_) (err : error) :
  b_client b = Some c ->
  aggregate_tags b p = Ret tags ->
  tags <> [] ->
  NewRecord (mkTaggedPacket p tags) = Ret (Ok r) ->
  client_Index env c (b_indexName b) (b_docType b) r
               (h ++ [EvNewRecord (mkTaggedPacket p tags)]) = Some err ->
  handle env b p h
  = (Ret (Some err),
     [EvNewRecord (mkTaggedPacket p tags);
      EvIndexDoc c (b_indexName b) (b_docType b) r]) /\
  Listen_task env b p h
  = (Ret tt,
     [EvNewRecord (mkTaggedPacket p tags);
      EvIndexDoc c (b_indexName b) (b_docType b) r;
      EvLog (Error err)]).
Proof.
  intros Hc Hagg Hne Hr Hi.
  assert (Hh : handle env b p h
               = (Ret (Some err),
                  [EvNewRecord (mkTaggedPacket p tags);
                   EvIndexDoc c (b_indexName b) (b_docType b) r])).
  { rewrite handle_run, Hagg.
    destruct tags as [|t ts]; [contradiction|].
    rewrite export_run, Hr, Hc, Hi. reflexivity. }
  split; [exact Hh|].
  rewrite Listen_task_run, Hh. reflexivity.
Qed.

Lemma run_seriesMarkers_in_order (ss : list SeriesMarker) (p : Packet)
      (acc : list string) :
  all_series_return ss p ->
  run_seriesMarkers ss p acc = Ret (acc ++ series_tags_in_order ss p).
Proof.
  unfold all_series_return, series_tags_in_order.
  revert acc. induction ss as [|sfn ss IH]; intros acc Hall; simpl.
  - now rewrite app_nil_r.
  - destruct (Hall sfn (or_introl eq_refl)) as [ts Hs].
    rewrite Hs. simpl. rewrite IH.
    + now rewrite app_assoc.
    + intros s Hin. apply Hall. now right.
Qed.

(** X10. When every marker and series marker returns, the tags [handle]
    gathers are the tags of the markers in the order they are registered,
    followed by the tags of the series markers in theirs, each series
    marker being called with the one packet. *)
Theorem aggregate_in_order (b : Badcapt) (p : Packet) :
  all_return (b_markers b) p ->
  all_series_return (b_seriesMarkers b) p ->
  aggregate_tags b p
  = Ret (tags_in_order (b_markers b) p
         ++ series_tags_in_order (b_seriesMarkers b) p).
Proof.
  intros Hm Hs. unfold aggregate_tags.
  rewrite (run_markers_in_order (b_markers b) p [] Hm). simpl.
  now apply run_seriesMarkers_in_order.
Qed.

End ExportFacts.

(* ================================================================== *)
(** * Further properties: construction *)

Section ConstructionFacts.

Variable env : Env.
Variables MiraiIdentifier ZmapIdentifier MasscanIdentifier : Marker.

Local Abbreviation New_ :=
  (New env MiraiIdentifier ZmapIdentifier MasscanIdentifier).
Local Abbreviation NewConfig_ :=
  (NewConfig env MiraiIdentifier ZmapIdentifier MasscanIdentifier).
Local Abbreviation initial_ :=
  (initial_conf MiraiIdentifier ZmapIdentifier MasscanIdentifier).

(** Options are applied from left to right, and an error ends the run. *)
Lemma apply_opts_app (xs ys : list Opt) (conf : Badcapt) :
  apply_opts (xs ++ ys) conf =
  match apply_opts xs conf with
  | Ok conf' => apply_opts ys conf'
  | Err err => Err err
  end.
Proof.
  revert conf. induction xs as [|f xs IH]; intros conf; simpl.
  - reflexivity.
  - destruct (f conf) as [conf' [err|]]; [reflexivity|apply IH].
Qed.

(** X11. The first option that fails ends [New]: it returns that error and
    no configuration, the options after it are not run, and no call is
    made to the search index even when an earlier option set a client. *)
Theorem New_option_error_aborts (pre post : list Opt) (f : Opt)
        (conf : Badcapt) (err : error) (h : History) :
  apply_opts pre initial_ = Ok conf ->
  snd (f conf) = Some err ->
  New_ (pre ++ f :: post) h = (Ret (Err err), []).
Proof.
  intros Hpre Hf.
  rewrite New_run, apply_opts_app, Hpre. simpl.
  destruct (f conf) as [conf' o]. simpl in Hf. subst o. reflexivity.
Qed.

(** X12. With a client set by the options, [New] asks once whether the
    index [indexName] exists.  An error of that check is returned and no
    index is created; an index that exists is left alone; an index that is
    missing is created once, and an error of the creation is returned in
    place of the configuration. *)
Theorem New_provisioning (opts : list Opt) (conf : Badcapt) (c : Client)
        (h : History) :
  apply_opts opts initial_ = Ok conf ->
  b_client conf = Some c ->
  New_ opts h =
  match client_IndexExists env c indexName h with
  | Err err => (Ret (Err err), [EvIndexExists c indexName])
  | Ok true => (Ret (Ok conf), [EvIndexExists c indexName])
  | Ok false =>
      (Ret (match client_CreateIndex env c indexName
                                     (h ++ [EvIndexExists c indexName]) with
            | Some err => Err err
            | None => Ok conf
            end),
       [EvIndexExists c indexName; EvCreateIndex c indexName])
  end.
Proof.
  intros Hopts Hc.
  rewrite New_run, Hopts, Hc, provision_index_run.
  destruct (client_IndexExists env c indexName h) as [[|]|err];
    try reflexivity.
  destruct (client_CreateIndex env c indexName _); reflexivity.
Qed.

(** X13. When the client cannot be built, [NewConfig] returns that error
    and makes no call to the search index. *)
Theorem NewConfig_client_error (elasticLoc : string) (markers : list Marker)
        (h : History) (err : error) :
  elastic_NewClient env elasticLoc h = Err err ->
  NewConfig_ elasticLoc markers h = (Ret (Err err), [EvNewClient elasticLoc]).
Proof.
  intros H. unfold NewConfig, bind, call, ret. rewrite H. reflexivity.
Qed.

(** X14. Given no marker, [NewConfig] is [New] with the one option
    [SetElastic] of the client it built: after the call that builds the
    client, the two return the same configuration or error and make the
    same calls. *)
Theorem NewConfig_no_markers_as_New (elasticLoc : string) (h : History)
        (client : Client) :
  elastic_NewClient env elasticLoc h = Ok client ->
  NewConfig_ elasticLoc [] h
  = (fst (New_ [SetElastic (Some client)] (h ++ [EvNewClient elasticLoc])),
     EvNewClient elasticLoc
     :: snd (New_ [SetElastic (Some client)] (h ++ [EvNewClient elasticLoc]))).
Proof.
  intros H. rewrite New_run. simpl.
  unfold NewConfig, bind, call, ret. rewrite H.
  destruct (provision_index env client _) as [[[err|]|v] es];
    simpl; rewrite ?app_nil_r; reflexivity.
Qed.

End ConstructionFacts.

(* ================================================================== *)
(** * Further properties: the capture loop *)

Lemma Listen_loop_left (b : Badcapt) (reads : list ReadResult) :
  fst (Listen_loop b reads) = true <-> In ReadEOF reads.
Proof.
  induction reads as [|[p| |err] reads IH]; simpl.
  - split; [discriminate|tauto].
  - destruct (Listen_loop b reads). simpl in *. rewrite IH.
    split; [tauto|intros [H|H]; [discriminate|exact H]].
  - split; auto.
  - destruct (Listen_loop b reads). simpl in *. rewrite IH.
    split; [tauto|intros [H|H]; [discriminate|exact H]].
Qed.

Lemma Listen_loop_trace (b : Badcapt) (reads : list ReadResult) :
  spawned (snd (Listen_loop b reads)) = read_packets (before_EOF reads) /\
  logged (snd (Listen_loop b reads)) = map Error (read_errors (before_EOF reads)) /\
  reads_made (snd (Listen_loop b reads)) = S (List.length (before_EOF reads)) /\
  closes_made (snd (Listen_loop b reads)) = 0.
Proof.
  unfold reads_made, closes_made.
  induction reads as [|[p| |err] reads IH]; simpl; auto;
    destruct (Listen_loop b reads); simpl in *;
    destruct IH as (-> & -> & -> & ->); auto.
Qed.

(** X15. [Listen] returns an error exactly when the interface cannot be
    opened, and then it is that error, nothing is read and no task is
    started.  Once the interface is open no read error makes [Listen]
    return: it returns, with [nil], exactly when the source answers
    [io.EOF]. *)
Theorem Listen_returns (b : Badcapt) (iface : string)
        (opened : option error) (reads : list ReadResult) :
  (forall err, fst (Listen b iface opened reads) = Some (Some err)
               <-> opened = Some err) /\
  (fst (Listen b iface opened reads) = Some None
   <-> opened = None /\ In ReadEOF reads) /\
  (opened <> None ->
   spawned (snd (Listen b iface opened reads)) = [] /\
   reads_made (snd (Listen b iface opened reads)) = 0).
Proof.
  unfold Listen. destruct opened as [e|].
  - repeat split; try discriminate; try (intros [= ->]; reflexivity).
    intros [H _]. discriminate H.
  - pose proof (Listen_loop_left b reads) as Hl.
    destruct (Listen_loop b reads) as [[|] es]; simpl in *.
    + repeat split; try discriminate; tauto.
    + repeat split; try discriminate; try tauto.
      all: try (intros [_ H]; apply Hl in H; discriminate H).
Qed.

(** X16. On an open interface [Listen] starts one task for each packet
    read before the first [io.EOF], in the order read; it logs the start
    line and then each read error before the first [io.EOF], in order;
    it makes one read more than there are answers before [io.EOF]; and it
    closes the handle once when it returns and not before. *)
Theorem Listen_until_EOF (b : Badcapt) (iface : string)
        (reads : list ReadResult) :
  let es := snd (Listen b iface None reads) in
  spawned es = read_packets (before_EOF reads) /\
  logged es = ("Started capturing on iface " ++ iface)%string
              :: map Error (read_errors (before_EOF reads)) /\
  reads_made es = S (List.length (before_EOF reads)) /\
  closes_made es
  = match fst (Listen b iface None reads) with
    | Some _ => 1
    | None => 0
    end.
Proof.
  unfold Listen.
  destruct (Listen_loop_trace b reads) as (Hs & Hl & Hr & Hc).
  unfold reads_made, closes_made, spawned, logged in *.
  destruct (Listen_loop b reads) as [[|] es]; simpl in *;
    rewrite ?flat_map_app, ?filter_app, ?length_app, ?Hs, ?Hl, ?Hr, ?Hc;
    simpl; rewrite ?app_nil_r; repeat split; lia.
Qed.

(* ================================================================== *)
(** * The further properties on the test bench *)

Lemma export_console_witness :
  export Outage.env (Bench.console [Bench.tag_masscan])
         (mkTaggedPacket Bench.syn ["masscan"]) []
  = (Ret (Some Outage.unsupported),
     [EvNewRecord (mkTaggedPacket Bench.syn ["masscan"])]) /\
  export Bench.env (Bench.console [Bench.tag_masscan])
         (mkTaggedPacket Bench.syn ["masscan"]) []
  = (Ret None, [EvNewRecord (mkTaggedPacket Bench.syn ["masscan"]);
                EvPrintln "tcp masscan"]).
Proof.
  split.
  - eapply (proj1 (proj2 (export_console
                            Outage.env (Bench.console [Bench.tag_masscan])
                            (mkTaggedPacket Bench.syn ["masscan"]) []
                            eq_refl))); reflexivity.
  - eapply (proj2 (proj2 (export_console
                            Bench.env (Bench.console [Bench.tag_masscan])
                            (mkTaggedPacket Bench.syn ["masscan"]) []
                            eq_refl))); reflexivity.
Defined.

Lemma export_elastic_witness :
  exists r,
    export_calls (snd (export Outage.env (Bench.indexed [Bench.tag_masscan])
                              (mkTaggedPacket Bench.dns ["masscan"]) []))
    = [EvIndexDoc Bench.es "badcapt" "bcrecord" r] /\
    fst (export Outage.env (Bench.indexed [Bench.tag_masscan])
                (mkTaggedPacket Bench.dns ["masscan"]) [])
    = Ret (Some Outage.refused).
Proof.
  eexists.
  destruct (export_elastic Outage.env (Bench.indexed [Bench.tag_masscan])
                           (mkTaggedPacket Bench.dns ["masscan"]) []
                           Bench.es _ eq_refl eq_refl) as [He Hc].
  split; [exact Hc|]. rewrite He. reflexivity.
Defined.

Lemma dispatch_to_console_witness :
  Listen_task Bench.env (Bench.console [Bench.tag_masscan]) Bench.syn []
  = (Ret tt, [EvNewRecord (mkTaggedPacket Bench.syn ["masscan"]);
              EvPrintln "tcp masscan"]).
Proof.
  eapply (proj1 (dispatch_to_console
                   Bench.env (Bench.console [Bench.tag_masscan]) Bench.syn []
                   ["masscan"] _ "tcp masscan"
                   eq_refl eq_refl ltac:(discriminate) eq_refl eq_refl)).
Defined.

Lemma index_failure_logged_once_witness :
  exists r,
    Listen_task Outage.env (Bench.indexed [Bench.tag_masscan]) Bench.syn []
    = (Ret tt, [EvNewRecord (mkTaggedPacket Bench.syn ["masscan"]);
                EvIndexDoc Bench.es "badcapt" "bcrecord" r;
                EvLog "elastic: connection refused"]).
Proof.
  eexists.
  eapply (proj2 (index_failure_logged_once
                   Outage.env (Bench.indexed [Bench.tag_masscan]) Bench.syn []
                   ["masscan"] Bench.es _ Outage.refused
                   eq_refl eq_refl ltac:(discriminate) eq_refl eq_refl)).
Defined.

Lemma aggregate_in_order_witness :
  aggregate_tags
    (mkBadcapt None indexName docType
               [Bench.tag_custom; Bench.no_opinion; Bench.tag_masscan]
               [Outage.tag_series] None 0)
    Bench.syn
  = Ret ["custom"; "masscan"; "series"].
Proof.
  apply (aggregate_in_order
           (mkBadcapt None indexName docType
                      [Bench.tag_custom; Bench.no_opinion; Bench.tag_masscan]
                      [Outage.tag_series] None 0)
           Bench.syn).
  - intros m [<-|[<-|[<-|[]]]]; eexists; reflexivity.
  - intros s [<-|[]]; eexists; reflexivity.
Defined.

Lemma New_option_error_aborts_witness :
  New Bench.env Bench.mirai Bench.zmap Bench.masscan
      ([SetElastic (Some Bench.es)]
       ++ Outage.bad_option :: [AddPacketMarker Bench.tag_custom]) []
  = (Ret (Err (errors_New "bad option")), []).
Proof.
  eapply (New_option_error_aborts
            Bench.env Bench.mirai Bench.zmap Bench.masscan
            [SetElastic (Some Bench.es)] [AddPacketMarker Bench.tag_custom]
            Outage.bad_option).
  - reflexivity.
  - reflexivity.
Defined.

Lemma New_provisioning_witness :
  New Outage.env Bench.mirai Bench.zmap Bench.masscan
      [SetElastic (Some Bench.es)] []
  = (Ret (Err Outage.refused), [EvIndexExists Bench.es "badcapt"]) /\
  fst (New Bench.env Bench.mirai Bench.zmap Bench.masscan
           [SetElastic (Some Bench.es)] [EvCreateIndex Bench.es "badcapt"])
  = Ret (Ok (Bench.indexed [Bench.mirai; Bench.zmap; Bench.masscan])).
Proof.
  split.
  - apply (New_provisioning
             Outage.env Bench.mirai Bench.zmap Bench.masscan
             [SetElastic (Some Bench.es)] _ Bench.es [] eq_refl eq_refl).
  - rewrite (New_provisioning
               Bench.env Bench.mirai Bench.zmap Bench.masscan
               [SetElastic (Some Bench.es)] _ Bench.es
               [EvCreateIndex Bench.es "badcapt"] eq_refl eq_refl).
    reflexivity.
Defined.

Lemma NewConfig_client_error_witness :
  NewConfig Outage.env Bench.mirai Bench.zmap Bench.masscan
            "http://localhost:9200" [] []
  = (Ret (Err Outage.refused), [EvNewClient "http://localhost:9200"]).
Proof.
  apply (NewConfig_client_error
           Outage.env Bench.mirai Bench.zmap Bench.masscan
           "http://localhost:9200" [] [] Outage.refused).
  reflexivity.
Defined.

Lemma NewConfig_no_markers_as_New_witness :
  NewConfig Bench.env Bench.mirai Bench.zmap Bench.masscan
            "http://localhost:9200" [] []
  = (Ret (Ok (Bench.indexed [Bench.mirai; Bench.zmap; Bench.masscan])),
     [EvNewClient "http://localhost:9200";
      EvIndexExists Bench.es "badcapt"; EvCreateIndex Bench.es "badcapt"]).
Proof.
  rewrite (NewConfig_no_markers_as_New
             Bench.env Bench.mirai Bench.zmap Bench.masscan
             "http://localhost:9200" [] Bench.es eq_refl).
  reflexivity.
Defined.

Lemma Listen_returns_witness :
  fst (Listen (Bench.console [Bench.tag_masscan]) "eth0" None Outage.capture)
  = Some None /\
  fst (Listen (Bench.console [Bench.tag_masscan]) "eth0"
              (Some Outage.refused) Outage.capture)
  = Some (Some Outage.refused).
Proof.
  split.
  - apply (proj2 (proj1 (proj2 (Listen_returns
                                  (Bench.console [Bench.tag_masscan]) "eth0"
                                  None Outage.capture)))).
    split; [reflexivity|]. simpl. tauto.
  - apply (proj2 (proj1 (Listen_returns
                            (Bench.console [Bench.tag_masscan]) "eth0"
                            (Some Outage.refused) Outage.capture)
                        Outage.refused)).
    reflexivity.
Defined.

(* ================================================================== *)
(** * Further properties: from construction to dispatch *)

Section EndToEnd.

Variable env : Env.
Variables MiraiIdentifier ZmapIdentifier MasscanIdentifier : Marker.

(** X17. A configuration that [New] returns for a client, an index name
    and a document type sends each record it can build to that client,
    under that index name and that document type, and makes no other
    export call. *)
Theorem New_names_reach_export (c : Client) (name doc : string)
        (h h' : History) (conf : Badcapt) (es : list Event)
        (tp : TaggedPacket) (r : Record_) :
  New env MiraiIdentifier ZmapIdentifier MasscanIdentifier
      [SetElastic (Some c); SetElasticIndexName name; SetElasticDocType doc] h
  = (Ret (Ok conf), es) ->
  NewRecord tp = Ret (Ok r) ->
  export_calls (snd (export env conf tp h')) = [EvIndexDoc c name doc r].
Proof.
  rewrite New_run. simpl.
  destruct (provision_index env c h) as [[[err|]|v] es'];
    intros [= <- _] Hr.
  rewrite export_run, Hr. reflexivity.
Qed.

(** X18. [New] with options that add markers returns, without any call, a
    configuration whose markers are the three defaults followed by the
    added ones in the order given; when they all return on a packet, the
    tags gathered for it are the tags of the defaults followed by those of
    the added markers. *)
Theorem New_added_markers_in_order (ms : list Marker) (h : History)
        (p : Packet) :
  all_return (defaultMarkers MiraiIdentifier ZmapIdentifier MasscanIdentifier
              ++ ms) p ->
  exists conf,
    New env MiraiIdentifier ZmapIdentifier MasscanIdentifier
        (map AddPacketMarker ms) h = (Ret (Ok conf), []) /\
    b_markers conf
    = [MiraiIdentifier; ZmapIdentifier; MasscanIdentifier] ++ ms /\
    aggregate_tags conf p
    = Ret (tags_in_order [MiraiIdentifier; ZmapIdentifier; MasscanIdentifier] p
           ++ tags_in_order ms p).
Proof.
  intros Hall. eexists. split; [apply New_registers_markers|].
  split; [reflexivity|].
  unfold aggregate_tags.
  cbn [b_markers b_seriesMarkers set_markers initial_conf].
  rewrite (run_markers_in_order _ p [] Hall).
  cbn [obind run_seriesMarkers app].
  unfold tags_in_order, defaultMarkers. rewrite map_app, concat_app.
  reflexivity.
Qed.

End EndToEnd.

Lemma New_names_reach_export_witness :
  exists r,
    export_calls
      (snd (export Bench.env
                   (mkBadcapt (Some Bench.es) "scans" "hit"
                              [Bench.mirai; Bench.zmap; Bench.masscan]
                              [] None 0)
                   (mkTaggedPacket Bench.syn ["masscan"]) []))
    = [EvIndexDoc Bench.es "scans" "hit" r].
Proof.
  eexists.
  eapply (New_names_reach_export
            Bench.env Bench.mirai Bench.zmap Bench.masscan
            Bench.es "scans" "hit" [] []).
  - reflexivity.
  - reflexivity.
Defined.

Lemma New_added_markers_in_order_witness :
  exists conf,
    New Bench.env Bench.mirai Bench.zmap Bench.masscan
        (map AddPacketMarker [Bench.tag_custom; Bench.no_opinion]) []
    = (Ret (Ok conf), []) /\
    b_markers conf
    = [Bench.mirai; Bench.zmap; Bench.masscan]
      ++ [Bench.tag_custom; Bench.no_opinion] /\
    aggregate_tags conf Bench.syn
    = Ret (tags_in_order [Bench.mirai; Bench.zmap; Bench.masscan] Bench.syn
           ++ tags_in_order [Bench.tag_custom; Bench.no_opinion] Bench.syn).
Proof.
  apply (New_added_markers_in_order
           Bench.env Bench.mirai Bench.zmap Bench.masscan
           [Bench.tag_custom; Bench.no_opinion] [] Bench.syn).
  intros m [<-|[<-|[<-|[<-|[<-|[]]]]]]; eexists; reflexivity.
Defined.
